(** * Radon-222 decay plot ([Code/plot.py]): data series and analytic curve

    The script defines a time axis, five literal simulation series, five
    literal relative-error series, and computes the analytic decay curve
    [N0 * exp(-lambda * t)] before drawing two charts.

    Number model.  The arrays are numpy [float64] arrays.  Module-level
    definitions below read every literal as the real number its decimal
    notation denotes, and [np.exp] as the real exponential; every comparison
    proved here has a margin far above one unit in the last place of a
    double.  The day conversion, whose round trip is sensitive to rounding,
    is modelled a second time on IEEE-754 binary64 in [Module Binary64]. *)

From Stdlib Require Import String Reals Lra Lia ZArith Bool Floats List.
From Stdlib Require Import Ascii.
Import ListNotations.

Local Open Scope R_scope.

(** ** numpy operations used by the script (element-wise, by broadcasting) *)

(** [a / c] for an array [a] and a scalar [c]. *)
Definition np_div_scalar (a : list R) (c : R) : list R :=
  map (fun x => x / c) a.

(** [c * a] for a scalar [c] and an array [a]. *)
Definition np_scalar_mul (c : R) (a : list R) : list R :=
  map (fun x => c * x) a.

(** [np.exp(a)]. *)
Definition np_exp (a : list R) : list R := map exp a.

(** ** BAGIAN 1: time axis *)

(* plot.py:13-14 *)
Definition waktu : list R :=
  [0.00; 132140.16; 264280.32; 396420.48; 528560.64;
   660700.80; 792840.96; 924981.12; 1057121.28; 1189261.44; 1321401.60].

(* plot.py:18 *)
Definition waktu_hari : list R := np_div_scalar waktu (24 * 3600).

(** ** BAGIAN 2: simulation results *)

(* plot.py:23-24 *)
Definition N_dt_33035 : list R :=
  [1.000e+15; 7.503e+14; 5.629e+14; 4.223e+14; 3.168e+14;
   2.377e+14; 1.783e+14; 1.338e+14; 1.004e+14; 7.532e+13; 5.651e+13].

(* plot.py:27-28 *)
Definition N_dt_16518 : list R :=
  [1.000e+15; 7.541e+14; 5.687e+14; 4.289e+14; 3.235e+14;
   2.439e+14; 1.840e+14; 1.387e+14; 1.046e+14; 7.890e+13; 5.950e+13].

(* plot.py:31-32 *)
Definition N_dt_6607 : list R :=
  [1.000e+15; 7.564e+14; 5.721e+14; 4.327e+14; 3.273e+14;
   2.476e+14; 1.873e+14; 1.417e+14; 1.071e+14; 8.104e+13; 6.130e+13].

(* plot.py:35-36 *)
Definition N_dt_3304 : list R :=
  [1.000e+15; 7.571e+14; 5.732e+14; 4.340e+14; 3.286e+14;
   2.488e+14; 1.884e+14; 1.426e+14; 1.080e+14; 8.176e+13; 6.190e+13].

(* plot.py:39-40 *)
Definition N_dt_1652 : list R :=
  [1.000e+15; 7.575e+14; 5.738e+14; 4.346e+14; 3.292e+14;
   2.494e+14; 1.889e+14; 1.431e+14; 1.084e+14; 8.211e+13; 6.220e+13].

(** ** BAGIAN 3: analytic solution *)

(* plot.py:45-46 *)
Definition N0 : R := 1.00e+15.
Definition lambda_decay : R := 2.0982e-06.

(* plot.py:51 *)
Definition N_analitik : list R :=
  np_scalar_mul N0 (np_exp (np_scalar_mul (- lambda_decay) waktu)).

(** ** BAGIAN 5: relative errors, in percent *)

(* plot.py:83-87 *)
Definition error_33035 : list R :=
  [0.0000; 1.0027; 1.9953; 2.9780; 3.9508; 4.9139; 5.8673; 6.8112; 7.7456; 8.6706; 9.5864].
Definition error_16518 : list R :=
  [0.0000; 0.4906; 0.9789; 1.4647; 1.9482; 2.4293; 2.9080; 3.3844; 3.8584; 4.3301; 4.7995].
Definition error_6607 : list R :=
  [0.0000; 0.1938; 0.3872; 0.5802; 0.7729; 0.9652; 1.1571; 1.3487; 1.5398; 1.7306; 1.9211].
Definition error_3304 : list R :=
  [0.0000; 0.0965; 0.1929; 0.2892; 0.3854; 0.4815; 0.5775; 0.6735; 0.7693; 0.8651; 0.9607].
Definition error_1652 : list R :=
  [0.0000; 0.0481; 0.0963; 0.1444; 0.1924; 0.2405; 0.2885; 0.3365; 0.3845; 0.4325; 0.4804].

(** ** The five simulations, by time step *)

Inductive TimeStep : Type :=
  | Dt33035 | Dt16518 | Dt6607 | Dt3304 | Dt1652.

(** Time-step size in seconds, as the comments of BAGIAN 2 give it. *)
Definition dt (s : TimeStep) : R :=
  match s with
  | Dt33035 => 33035
  | Dt16518 => 16518
  | Dt6607 => 6607
  | Dt3304 => 3304
  | Dt1652 => 1652
  end.

Definition N_dt (s : TimeStep) : list R :=
  match s with
  | Dt33035 => N_dt_33035
  | Dt16518 => N_dt_16518
  | Dt6607 => N_dt_6607
  | Dt3304 => N_dt_3304
  | Dt1652 => N_dt_1652
  end.

Definition error (s : TimeStep) : list R :=
  match s with
  | Dt33035 => error_33035
  | Dt16518 => error_16518
  | Dt6607 => error_6607
  | Dt3304 => error_3304
  | Dt1652 => error_1652
  end.


(** ** Relative error and the precision of the literals *)

(** Relative error in percent, as the comment of plot.py:82 defines it:
    [|N_numerik - N_analitik| / N_analitik * 100]. *)
Definition relative_error (N_numerik N_analitik : R) : R :=
  Rabs (N_numerik - N_analitik) / N_analitik * 100.

(** [u] is one unit in the fourth significant figure of [x]:
    [x] has decimal exponent [e] and [u = 10^(e-3)]. *)
Definition sig4_unit (x u : R) : Prop :=
  exists e : Z,
    powerRZ 10 e <= Rabs x < powerRZ 10 (e + 1) /\ u = powerRZ 10 (e - 3).

(** The literal error of series [s] at index [i] is the formula's value, to
    four decimal places, at some atom count within [tol] units in the fourth
    significant figure of the literal simulation value.  [tol = 1/2] is
    rounding to four significant figures. *)
Definition error_agrees (tol : R) (s : TimeStep) (i : nat) : Prop :=
  exists n u : R,
    sig4_unit (nth i (N_dt s) 0) u
    /\ Rabs (n - nth i (N_dt s) 0) <= tol * u
    /\ Rabs (relative_error n (nth i N_analitik 0) - nth i (error s) 0)
       <= 0.00005.

(** The two points where rounding alone does not explain the literal. *)
Definition rounding_slack (s : TimeStep) (i : nat) : R :=
  match s, i with
  | Dt33035, 6%nat => 1
  | Dt6607, 3%nat => 1
  | _, _ => / 2
  end.

(** One unit in the fourth significant figure of the simulation values at
    index [i]: they lie in [1e15, 1e16) at 0, in [1e14, 1e15) at 1..8 and
    in [1e13, 1e14) at 9 and 10. *)
Definition N_dt_unit (i : nat) : R :=
  match i with
  | 0%nat => 1e12
  | 9%nat | 10%nat => 1e10
  | _ => 1e11
  end.

(** ** The day conversion on IEEE-754 binary64 *)

Module Binary64.
Local Open Scope float_scope.
Local Set Warnings "-inexact-float".

(* plot.py:13-14 *)
Definition waktu : list float :=
  [0.00; 132140.16; 264280.32; 396420.48; 528560.64;
   660700.80; 792840.96; 924981.12; 1057121.28; 1189261.44; 1321401.60].

(* plot.py:18 *)
Definition waktu_hari : list float :=
  map (fun t => t / (24 * 3600)) waktu.

(** Days back to seconds. *)
Definition to_seconds (hari : list float) : list float :=
  map (fun d => d * 86400) hari.

End Binary64.

(** ** The script as a sequence of statements

    Module-level names are bound top to bottom; pyplot keeps a list of
    figures, the last one current.  A statement fails on an unbound name
    (NameError) and [plt.plot] fails when [x] and [y] differ in length
    (ValueError).  Keyword arguments other than [label], and the calls that
    only decorate the current figure, do not read or write any series. *)

Inductive Var : Type :=
  | V_waktu
  | V_waktu_hari
  | V_N_dt (s : TimeStep)
  | V_N_analitik
  | V_error (s : TimeStep).

Definition TimeStep_eqb (a b : TimeStep) : bool :=
  match a, b with
  | Dt33035, Dt33035 | Dt16518, Dt16518 | Dt6607, Dt6607
  | Dt3304, Dt3304 | Dt1652, Dt1652 => true
  | _, _ => false
  end.

Definition Var_eqb (v w : Var) : bool :=
  match v, w with
  | V_waktu, V_waktu | V_waktu_hari, V_waktu_hari
  | V_N_analitik, V_N_analitik => true
  | V_N_dt a, V_N_dt b | V_error a, V_error b => TimeStep_eqb a b
  | _, _ => false
  end.

Record Curve : Type := mkCurve {
  curve_x : list R;
  curve_y : list R;
  curve_fmt : string;
  curve_label : string
}.

Record State : Type := mkState {
  env : Var -> option (list R);
  bound : list Var;            (* names in binding order, newest first *)
  figures : list (list Curve)  (* newest figure first, newest curve first *)
}.

Definition Stmt : Type := State -> option State.

Definition init : State :=
  {| env := fun _ => None; bound := []; figures := [] |}.

(** [v = rhs], where [rhs] reads the names bound so far. *)
Definition assign (v : Var) (rhs : (Var -> option (list R)) -> option (list R))
  : Stmt :=
  fun st =>
    match rhs (env st) with
    | Some a =>
        Some {| env := fun w => if Var_eqb w v then Some a else env st w;
                bound := v :: bound st;
                figures := figures st |}
    | None => None
    end.

(** [plt.figure(...)]. *)
Definition plt_figure : Stmt :=
  fun st =>
    Some {| env := env st; bound := bound st; figures := [] :: figures st |}.

(** [plt.plot(x, y, fmt, label=...)]. *)
Definition plt_plot (x y : (Var -> option (list R)) -> option (list R))
  (fmt label : string) : Stmt :=
  fun st =>
    match x (env st), y (env st) with
    | Some xs, Some ys =>
        if Nat.eqb (length xs) (length ys) then
          let c := mkCurve xs ys fmt label in
          Some {| env := env st; bound := bound st;
                  figures := match figures st with
                             | [] => [[c]]
                             | f :: fs => (c :: f) :: fs
                             end |}
        else None
    | _, _ => None
    end.

(** [plt.xlabel], [plt.ylabel], [plt.title], [plt.legend], [plt.grid],
    [plt.tight_layout], [plt.show]. *)
Definition plt_decorate : Stmt := fun st => Some st.

Definition literal (a : list R) : (Var -> option (list R)) -> option (list R) :=
  fun _ => Some a.

Definition name (v : Var) : (Var -> option (list R)) -> option (list R) :=
  fun e => e v.

Definition apply1 (f : list R -> list R)
  (a : (Var -> option (list R)) -> option (list R))
  : (Var -> option (list R)) -> option (list R) :=
  fun e => option_map f (a e).

Local Open Scope string_scope.

Definition program : list Stmt :=
  [ (* BAGIAN 1 *)
    assign V_waktu (literal waktu);
    assign V_waktu_hari (apply1 (fun w => np_div_scalar w (24 * 3600)) (name V_waktu));
    (* BAGIAN 2 *)
    assign (V_N_dt Dt33035) (literal N_dt_33035);
    assign (V_N_dt Dt16518) (literal N_dt_16518);
    assign (V_N_dt Dt6607) (literal N_dt_6607);
    assign (V_N_dt Dt3304) (literal N_dt_3304);
    assign (V_N_dt Dt1652) (literal N_dt_1652);
    (* BAGIAN 3 *)
    assign V_N_analitik
      (apply1 (fun w => np_scalar_mul N0 (np_exp (np_scalar_mul (- lambda_decay) w)))
              (name V_waktu));
    (* BAGIAN 4 *)
    plt_figure;
    plt_plot (name V_waktu_hari)
      (apply1 (fun a => np_div_scalar a 1e14) (name V_N_analitik)) "k-" "Analitik";
    plt_plot (name V_waktu_hari)
      (apply1 (fun a => np_div_scalar a 1e14) (name (V_N_dt Dt33035))) "r--" "dt = 9.18 jam";
    plt_plot (name V_waktu_hari)
      (apply1 (fun a => np_div_scalar a 1e14) (name (V_N_dt Dt16518))) "b--" "dt = 4.59 jam";
    plt_plot (name V_waktu_hari)
      (apply1 (fun a => np_div_scalar a 1e14) (name (V_N_dt Dt6607))) "c--" "dt = 1.84 jam";
    plt_plot (name V_waktu_hari)
      (apply1 (fun a => np_div_scalar a 1e14) (name (V_N_dt Dt3304))) "g--" "dt = 0.92 jam";
    plt_plot (name V_waktu_hari)
      (apply1 (fun a => np_div_scalar a 1e14) (name (V_N_dt Dt1652))) "m--" "dt = 0.46 jam";
    plt_decorate; plt_decorate; plt_decorate; plt_decorate; plt_decorate; plt_decorate;
    (* BAGIAN 5 *)
    plt_figure;
    assign (V_error Dt33035) (literal error_33035);
    assign (V_error Dt16518) (literal error_16518);
    assign (V_error Dt6607) (literal error_6607);
    assign (V_error Dt3304) (literal error_3304);
    assign (V_error Dt1652) (literal error_1652);
    plt_plot (name V_waktu_hari) (name (V_error Dt33035)) "r-o" "dt = 9.18 jam";
    plt_plot (name V_waktu_hari) (name (V_error Dt16518)) "b-s" "dt = 4.59 jam";
    plt_plot (name V_waktu_hari) (name (V_error Dt6607)) "c-v" "dt = 1.84 jam";
    plt_plot (name V_waktu_hari) (name (V_error Dt3304)) "g-^" "dt = 0.92 jam";
    plt_plot (name V_waktu_hari) (name (V_error Dt1652)) "m-d" "dt = 0.46 jam";
    plt_decorate; plt_decorate; plt_decorate; plt_decorate; plt_decorate; plt_decorate;
    plt_decorate ].

Local Close Scope string_scope.

(** States before the first statement and after each one, while they succeed. *)
Fixpoint trace (p : list Stmt) (st : State) : list State :=
  st :: match p with
        | [] => []
        | s :: p' => match s st with
                     | Some st' => trace p' st'
                     | None => []
                     end
        end.

Fixpoint run (p : list Stmt) (st : State) : option State :=
  match p with
  | [] => Some st
  | s :: p' => match s st with
               | Some st' => run p' st'
               | None => None
               end
  end.

(** The value the script gives each name. *)
Definition series (v : Var) : list R :=
  match v with
  | V_waktu => waktu
  | V_waktu_hari => waktu_hari
  | V_N_dt s => N_dt s
  | V_N_analitik => N_analitik
  | V_error s => error s
  end.

(** Every binding of [s1] is still the binding of [s2]. *)
Definition keeps_bindings (s1 s2 : State) : Prop :=
  forall (v : Var) (a : list R), env s1 v = Some a -> env s2 v = Some a.

(** Every bound name is in the binding log. *)
Definition bound_covers (st : State) : Prop :=
  forall (v : Var) (a : list R), env st v = Some a -> In v (bound st).

(** A statement either leaves the names alone or binds exactly one name,
    logging it. *)
Definition well_behaved (s : Stmt) : Prop :=
  forall st st' : State, s st = Some st' ->
    (env st' = env st /\ bound st' = bound st)
    \/ (exists v : Var, bound st' = v :: bound st
                       /\ forall w : Var, w <> v -> env st' w = env st w).

(** ** Reading the charts *)

(** The colour of a curve is the first character of its format string
    (['r--'], ['b-s'], ...). *)
Definition curve_colour (c : Curve) : option ascii :=
  match curve_fmt c with
  | String a _ => Some a
  | EmptyString => None
  end.

Definition digit (c : ascii) : option Z :=
  let n := nat_of_ascii c in
  if (48 <=? n)%nat && (n <=? 57)%nat then Some (Z.of_nat (n - 48)) else None.

(** Leading decimal digits of [s], as a number, and what follows them. *)
Fixpoint parse_digits (s : string) (acc : Z) : Z * string :=
  match s with
  | String c rest =>
      match digit c with
      | Some d => parse_digits rest (10 * acc + d)%Z
      | None => (acc, s)
      end
  | EmptyString => (acc, s)
  end.

(** The hours of a legend label ['dt = H.HH jam'], in hundredths. *)
Definition label_hours (label : string) : option Z :=
  if prefix "dt = " label then
    let '(h, rest) := parse_digits (substring 5 (String.length label - 5) label) 0%Z in
    match rest with
    | String "." (String d1 (String d2 unit)) =>
        match digit d1, digit d2 with
        | Some a, Some b =>
            if String.eqb unit " jam" then Some (h * 100 + a * 10 + b)%Z else None
        | _, _ => None
        end
    | _ => None
    end
  else None.

(** ** The literal series on IEEE-754 binary64 *)

Module Binary64Data.
Local Open Scope float_scope.
Local Set Warnings "-inexact-float".

(* plot.py:23-40 *)
Definition N_dt (s : TimeStep) : list float :=
  match s with
  | Dt33035 =>
      [1.000e+15; 7.503e+14; 5.629e+14; 4.223e+14; 3.168e+14;
       2.377e+14; 1.783e+14; 1.338e+14; 1.004e+14; 7.532e+13; 5.651e+13]
  | Dt16518 =>
      [1.000e+15; 7.541e+14; 5.687e+14; 4.289e+14; 3.235e+14;
       2.439e+14; 1.840e+14; 1.387e+14; 1.046e+14; 7.890e+13; 5.950e+13]
  | Dt6607 =>
      [1.000e+15; 7.564e+14; 5.721e+14; 4.327e+14; 3.273e+14;
       2.476e+14; 1.873e+14; 1.417e+14; 1.071e+14; 8.104e+13; 6.130e+13]
  | Dt3304 =>
      [1.000e+15; 7.571e+14; 5.732e+14; 4.340e+14; 3.286e+14;
       2.488e+14; 1.884e+14; 1.426e+14; 1.080e+14; 8.176e+13; 6.190e+13]
  | Dt1652 =>
      [1.000e+15; 7.575e+14; 5.738e+14; 4.346e+14; 3.292e+14;
       2.494e+14; 1.889e+14; 1.431e+14; 1.084e+14; 8.211e+13; 6.220e+13]
  end.

(* plot.py:83-87 *)
Definition error (s : TimeStep) : list float :=
  match s with
  | Dt33035 =>
      [0.0000; 1.0027; 1.9953; 2.9780; 3.9508; 4.9139; 5.8673; 6.8112; 7.7456; 8.6706; 9.5864]
  | Dt16518 =>
      [0.0000; 0.4906; 0.9789; 1.4647; 1.9482; 2.4293; 2.9080; 3.3844; 3.8584; 4.3301; 4.7995]
  | Dt6607 =>
      [0.0000; 0.1938; 0.3872; 0.5802; 0.7729; 0.9652; 1.1571; 1.3487; 1.5398; 1.7306; 1.9211]
  | Dt3304 =>
      [0.0000; 0.0965; 0.1929; 0.2892; 0.3854; 0.4815; 0.5775; 0.6735; 0.7693; 0.8651; 0.9607]
  | Dt1652 =>
      [0.0000; 0.0481; 0.0963; 0.1444; 0.1924; 0.2405; 0.2885; 0.3365; 0.3845; 0.4325; 0.4804]
  end.

(** [rel] holds between every element and its successor. *)
Fixpoint chain (rel : float -> float -> bool) (a : list float) : bool :=
  match a with
  | x :: (y :: _) as rest => rel x y && chain rel rest
  | _ => true
  end.

(** [rel] holds element by element between two arrays of one length. *)
Fixpoint pointwise (rel : float -> float -> bool) (a b : list float) : bool :=
  match a, b with
  | x :: a', y :: b' => rel x y && pointwise rel a' b'
  | [], [] => true
  | _, _ => false
  end.

End Binary64Data.

(** The analytic series to five significant figures. *)
Definition N_analitik_5sig : list R :=
  [1.0000e+15; 7.5786e+14; 5.7435e+14; 4.3528e+14; 3.2988e+14;
   2.5000e+14; 1.8947e+14; 1.4359e+14; 1.0882e+14; 8.2471e+13; 6.2501e+13].

(** ** Certified enclosures of the exponential

    [1 + y <= exp y] at [y = x / 2^k], squared [k] times, bounds [exp x] from
    below; every square is rounded down on a fixed-point grid of step
    [1 / prec].  The upper bound comes from [exp x = / exp (- x)]. *)

Definition prec : Z := 2 ^ 160.

Fixpoint sq_down (k : nat) (a : Z) : Z :=
  match k with
  | O => a
  | S k' => sq_down k' (a * a / prec)
  end.

(** Fixed-point lower bound of [exp (num / den)], for [den > 0]. *)
Definition exp_floor (num den : Z) (k : nat) : Z :=
  let d := (den * 2 ^ Z.of_nat k)%Z in
  sq_down k ((d + num) * prec / d).

(** Checks [lo / scale <= exp (num / den) <= hi / scale] from the two
    fixed-point bounds. *)
Definition exp_enclosed (num den : Z) (k : nat) (lo hi scale : Z) : bool :=
  let d := (den * 2 ^ Z.of_nat k)%Z in
  (0 <? den)%Z && (0 <? scale)%Z && (0 <=? d + num)%Z && (0 <=? d - num)%Z
  && (lo * prec <=? exp_floor num den k * scale)%Z
  && (0 <? exp_floor (- num) den k)%Z
  && (prec * scale <=? hi * exp_floor (- num) den k)%Z.

(** ** Enclosure of the analytic series

    [lambda_decay * waktu[i]] is the rational [i * 277256483712 / 10^12];
    [analitik_floor] lists the integer parts of the analytic values. *)

Definition analitik_floor : list Z :=
  [1000000000000000; 757860093410948; 574351921184850; 435278400639908;
   329880129368729; 250002985657800; 189467286063636; 143589695114506;
   108820899752329; 82471017251363; 62501492837814]%Z.

Lemma prec_pos : 0 < IZR prec.
Proof. apply IZR_lt. reflexivity. Qed.

Lemma sq_step (a : Z) (r : R) :
  (0 <= a)%Z -> IZR a / IZR prec <= r ->
  (0 <= a * a / prec)%Z /\ IZR (a * a / prec) / IZR prec <= r * r.
Proof.
  intros Ha Hr.
  assert (HP := prec_pos).
  assert (Hz : (prec * (a * a / prec) <= a * a)%Z)
    by (apply Z.mul_div_le; reflexivity).
  split.
  - apply Z.div_pos; [ nia | reflexivity ].
  - apply IZR_le in Hz. rewrite !mult_IZR in Hz.
    apply IZR_le in Ha.
    set (q := IZR (a * a / prec)) in *.
    set (A := IZR a) in *. set (P := IZR prec) in *.
    assert (H0 : 0 <= A / P) by (apply Rmult_le_pos; [ lra | left; now apply Rinv_0_lt_compat ]).
    apply Rle_trans with ((A / P) * (A / P)).
    + unfold Rdiv. apply Rmult_le_reg_r with (P * P); [ nra | ].
      replace (q * / P * (P * P)) with (P * q) by (field; lra).
      replace (A * / P * (A * / P) * (P * P)) with (A * A) by (field; lra).
      exact Hz.
    + nra.
Qed.

Lemma sq_down_exp (k : nat) : forall (a : Z) (y : R),
  (0 <= a)%Z -> IZR a / IZR prec <= exp y ->
  IZR (sq_down k a) / IZR prec <= exp (2 ^ k * y).
Proof.
  induction k as [| k IH]; intros a y Ha Hy; simpl.
  - now rewrite Rmult_1_l.
  - destruct (sq_step a (exp y) Ha Hy) as [Ha' Hy'].
    rewrite <- exp_plus in Hy'.
    replace (2 * 2 ^ k * y) with (2 ^ k * (y + y)) by ring.
    now apply IH.
Qed.

Lemma exp_floor_le (num den : Z) (k : nat) :
  (0 < den)%Z -> (0 <= den * 2 ^ Z.of_nat k + num)%Z ->
  IZR (exp_floor num den k) / IZR prec <= exp (IZR num / IZR den).
Proof.
  intros Hden Hnum. unfold exp_floor.
  set (d := (den * 2 ^ Z.of_nat k)%Z) in *.
  assert (Hd : (0 < d)%Z) by (subst d; apply Z.mul_pos_pos; [ | apply Z.pow_pos_nonneg ]; lia).
  assert (HP := prec_pos).
  assert (HdR : 0 < IZR d) by now apply IZR_lt.
  assert (HdenR : 0 < IZR den) by now apply IZR_lt.
  assert (Hpow : IZR d = IZR den * 2 ^ k).
  { subst d. rewrite mult_IZR, <- pow_IZR. reflexivity. }
  assert (H2k : 0 < 2 ^ k) by (apply pow_lt; lra).
  replace (IZR num / IZR den) with (2 ^ k * (IZR num / IZR d))
    by (rewrite Hpow; field; lra).
  apply sq_down_exp.
  - apply Z.div_pos; [ | exact Hd ]. apply Z.mul_nonneg_nonneg; [ lia | discriminate ].
  - apply Rle_trans with (1 + IZR num / IZR d); [ | apply exp_ineq1_le ].
    assert (Hz : (d * ((d + num) * prec / d) <= (d + num) * prec)%Z)
      by (apply Z.mul_div_le; exact Hd).
    apply IZR_le in Hz. rewrite !mult_IZR, plus_IZR in Hz.
    set (q := IZR ((d + num) * prec / d)) in *.
    apply Rmult_le_reg_r with (IZR prec * IZR d); [ nra | ].
    replace (q / IZR prec * (IZR prec * IZR d)) with (IZR d * q) by (field; lra).
    replace ((1 + IZR num / IZR d) * (IZR prec * IZR d))
      with ((IZR d + IZR num) * IZR prec) by (field; lra).
    exact Hz.
Qed.

Lemma exp_enclosed_sound (num den : Z) (k : nat) (lo hi scale : Z) :
  exp_enclosed num den k lo hi scale = true ->
  IZR lo / IZR scale <= exp (IZR num / IZR den) <= IZR hi / IZR scale.
Proof.
  unfold exp_enclosed. cbv zeta.
  rewrite !andb_true_iff.
  intros [[[[[[Hden Hsc] Hp] Hm] Hlo] Hpos] Hhi].
  apply Z.ltb_lt in Hden, Hsc, Hpos.
  apply Z.leb_le in Hp, Hm, Hlo, Hhi.
  assert (HP := prec_pos).
  assert (HsR : 0 < IZR scale) by now apply IZR_lt.
  split.
  - apply Rle_trans with (IZR (exp_floor num den k) / IZR prec);
      [ | now apply exp_floor_le ].
    apply IZR_le in Hlo. rewrite !mult_IZR in Hlo.
    apply Rmult_le_reg_r with (IZR scale * IZR prec); [ nra | ].
    replace (IZR lo / IZR scale * (IZR scale * IZR prec))
      with (IZR lo * IZR prec) by (field; lra).
    replace (IZR (exp_floor num den k) / IZR prec * (IZR scale * IZR prec))
      with (IZR (exp_floor num den k) * IZR scale) by (field; lra).
    exact Hlo.
  - assert (Hf : IZR (exp_floor (- num) den k) / IZR prec
                 <= exp (IZR (- num) / IZR den))
      by (apply exp_floor_le; [ exact Hden | lia ]).
    set (f := exp_floor (- num) den k) in *.
    assert (HfR : 0 < IZR f) by now apply IZR_lt.
    replace (IZR (- num) / IZR den) with (- (IZR num / IZR den)) in Hf
      by (rewrite opp_IZR; unfold Rdiv; ring).
    rewrite exp_Ropp in Hf.
    assert (He := exp_pos (IZR num / IZR den)).
    set (e := exp (IZR num / IZR den)) in *.
    apply IZR_le in Hhi. rewrite !mult_IZR in Hhi.
    (* f / P <= / e, so e <= P / f <= hi / scale *)
    assert (H1 : e * IZR f <= IZR prec).
    { apply Rmult_le_reg_r with (/ e); [ now apply Rinv_0_lt_compat | ].
      replace (e * IZR f * / e) with (IZR f) by (field; lra).
      apply Rmult_le_reg_r with (/ IZR prec); [ now apply Rinv_0_lt_compat | ].
      replace (IZR prec * / e * / IZR prec) with (/ e) by (field; lra).
      exact Hf. }
    apply Rmult_le_reg_r with (IZR scale * IZR f); [ nra | ].
    replace (IZR hi / IZR scale * (IZR scale * IZR f))
      with (IZR hi * IZR f) by (field; lra).
    nra.
Qed.

Lemma N_analitik_nth (i : nat) :
  (i <= 10)%nat ->
  nth i N_analitik 0 = N0 * exp (- lambda_decay * nth i waktu 0).
Proof.
  intros Hi. unfold N_analitik, np_scalar_mul, np_exp.
  rewrite !map_map.
  do 11 (destruct i as [| i]; [ reflexivity | ]). lia.
Qed.

Lemma decay_exponent (i : nat) :
  (i <= 10)%nat ->
  - lambda_decay * nth i waktu 0
  = IZR (- (Z.of_nat i * 277256483712)) / IZR 1000000000000.
Proof.
  intros Hi.
  do 11 (destruct i as [| i];
         [ cbv [nth waktu lambda_decay Z.of_nat Pos.of_succ_nat Pos.succ Z.mul Pos.mul Pos.add Z.opp];
           lra | ]).
  lia.
Qed.

Lemma N_analitik_enclosure (i : nat) :
  (i <= 10)%nat ->
  IZR (nth i analitik_floor 0%Z) <= nth i N_analitik 0
  <= IZR (nth i analitik_floor 0%Z) + 1.
Proof.
  intros Hi. rewrite (N_analitik_nth i Hi), (decay_exponent i Hi).
  assert (H : exp_enclosed (- (Z.of_nat i * 277256483712)) 1000000000000 60
                (nth i analitik_floor 0%Z) (nth i analitik_floor 0%Z + 1)
                1000000000000000 = true).
  { do 11 (destruct i as [| i]; [ vm_compute; reflexivity | ]). lia. }
  apply exp_enclosed_sound in H.
  rewrite plus_IZR in H. unfold N0.
  set (e := exp _) in *. lra.
Qed.

(** ** Properties of the literal series *)

Lemma nth_np_div_scalar (a : list R) (c : R) (i : nat) :
  nth i (np_div_scalar a c) 0 = nth i a 0 / c.
Proof.
  revert i. induction a as [| x a IH]; intros [| i]; simpl;
    try (unfold Rdiv; ring); try reflexivity.
  apply IH.
Qed.

Ltac literal_series :=
  cbv [nth error N_dt
       error_33035 error_16518 error_6607 error_3304 error_1652
       N_dt_33035 N_dt_16518 N_dt_6607 N_dt_3304 N_dt_1652 waktu].

(** Case split on an index known to be at most 10. *)
Ltac each_index i tac :=
  do 11 (destruct i as [| i]; [ tac | ]); try lia.

(** C1. At every index [i > 0] the error of a series with a larger time
    step is at least the error of a series with a smaller time step, and at
    the last index the coarsest series has error 9.5864 and the finest
    0.4804. *)
Theorem error_ordering_by_time_step :
  (forall (a b : TimeStep) (i : nat),
      dt a > dt b -> (0 < i <= 10)%nat ->
      nth i (error a) 0 >= nth i (error b) 0)
  /\ nth 10 error_33035 0 = 9.5864
  /\ nth 10 error_1652 0 = 0.4804.
Proof.
  split; [ | split; reflexivity ].
  intros a b i Hdt Hi.
  destruct a, b; cbv [dt] in Hdt; try (exfalso; lra);
    each_index i ltac:(try lia; literal_series; lra).
Qed.

Lemma error_ordering_by_time_step_witness :
  nth 10 (error Dt33035) 0 >= nth 10 (error Dt1652) 0.
Proof.
  apply (proj1 error_ordering_by_time_step Dt33035 Dt1652 10%nat).
  - cbv [dt]. lra.
  - lia.
Defined.

(** C2. The analytic series has 11 elements and its element [i] is
    [1.0e15 * exp (-2.0982e-6 * waktu[i])]. *)
Theorem N_analitik_elementwise :
  List.length N_analitik = 11%nat
  /\ forall i : nat, (i <= 10)%nat ->
       nth i N_analitik 0 = 1.0e15 * exp (- 2.0982e-6 * nth i waktu 0).
Proof.
  split; [ reflexivity | ].
  intros i Hi. rewrite (N_analitik_nth i Hi).
  unfold N0, lambda_decay. f_equal; [ lra | f_equal; f_equal; lra ].
Qed.

Lemma N_analitik_elementwise_witness :
  nth 10 N_analitik 0 = 1.0e15 * exp (- 2.0982e-6 * nth 10 waktu 0).
Proof.
  apply (proj2 N_analitik_elementwise 10%nat). lia.
Defined.

(** C4. Each simulation series is non-increasing along the time index. *)
Theorem N_dt_non_increasing (s : TimeStep) (i : nat) :
  (i <= 9)%nat -> nth i (N_dt s) 0 >= nth (S i) (N_dt s) 0.
Proof.
  intros Hi.
  destruct s; each_index i ltac:(try lia; literal_series; lra).
Qed.

Lemma N_dt_non_increasing_witness :
  nth 9 (N_dt Dt1652) 0 >= nth 10 (N_dt Dt1652) 0.
Proof. apply (N_dt_non_increasing Dt1652 9). lia. Defined.

(** C6. The analytic series at the first timestamp, [t = 0], is exactly
    [N0 = 1.0e15]. *)
Theorem N_analitik_at_zero :
  nth 0 waktu 0 = 0 /\ nth 0 N_analitik 0 = N0 /\ nth 0 N_analitik 0 = 1.0e15.
Proof.
  assert (H : nth 0 N_analitik 0 = N0).
  { rewrite N_analitik_nth by lia. cbv [nth waktu].
    replace (- lambda_decay * 0.00) with 0 by lra.
    rewrite exp_0. ring. }
  repeat split; [ cbv [nth waktu]; lra | exact H | rewrite H; unfold N0; lra ].
Qed.

(** C7. The first element of each of the five error series is 0.0000. *)
Theorem error_at_zero (s : TimeStep) : nth 0 (error s) 0 = 0.0000.
Proof. destruct s; reflexivity. Qed.

(** C10. Each error series is strictly increasing along the time index, so
    every error at an index above 0 is strictly positive. *)
Theorem error_strictly_increasing :
  (forall (s : TimeStep) (i : nat),
      (i <= 9)%nat -> nth i (error s) 0 < nth (S i) (error s) 0)
  /\ (forall (s : TimeStep) (i : nat),
      (0 < i <= 10)%nat -> 0 < nth i (error s) 0).
Proof.
  split; intros s i Hi;
    destruct s; each_index i ltac:(try lia; literal_series; lra).
Qed.

Lemma error_strictly_increasing_witness :
  nth 0 (error Dt6607) 0 < nth 1 (error Dt6607) 0
  /\ 0 < nth 10 (error Dt1652) 0.
Proof.
  split.
  - apply (proj1 error_strictly_increasing Dt6607 0%nat). lia.
  - apply (proj2 error_strictly_increasing Dt1652 10%nat). lia.
Defined.

(** C8. Seconds to days and back ([/ 86400], [* 86400]) gives the original
    timestamps: exactly on the reals, and exactly on binary64 for each of
    the eleven literals. *)
Theorem waktu_round_trip :
  24 * 3600 = 86400
  /\ (forall i : nat, nth i waktu_hari 0 * 86400 = nth i waktu 0)
  /\ Binary64.to_seconds Binary64.waktu_hari = Binary64.waktu.
Proof.
  split; [ lra | split ].
  - intros i. unfold waktu_hari. rewrite nth_np_div_scalar. field.
  - vm_compute. reflexivity.
Qed.

(** ** The simulations against the analytic curve *)

(** C9. Every simulation value is at most the analytic value at the same
    index, and at every index [i > 0] the simulation values grow as the
    time step shrinks, up to the analytic value. *)
Theorem simulation_underestimates :
  (forall (s : TimeStep) (i : nat),
      (i <= 10)%nat -> nth i (N_dt s) 0 <= nth i N_analitik 0)
  /\ (forall i : nat, (0 < i <= 10)%nat ->
        nth i N_dt_33035 0 <= nth i N_dt_16518 0
        /\ nth i N_dt_16518 0 <= nth i N_dt_6607 0
        /\ nth i N_dt_6607 0 <= nth i N_dt_3304 0
        /\ nth i N_dt_3304 0 <= nth i N_dt_1652 0
        /\ nth i N_dt_1652 0 <= nth i N_analitik 0).
Proof.
  assert (Hall : forall (s : TimeStep) (i : nat),
             (i <= 10)%nat -> nth i (N_dt s) 0 <= nth i N_analitik 0).
  { intros s i Hi.
    destruct (N_analitik_enclosure i Hi) as [Hlo _].
    remember (nth i N_analitik 0) as A eqn:EA. clear EA.
    destruct s;
      each_index i ltac:(cbv [nth analitik_floor] in Hlo; literal_series; lra). }
  split; [ exact Hall | ].
  intros i Hi. repeat split; try (apply (Hall Dt1652); lia);
    each_index i ltac:(try lia; literal_series; lra).
Qed.

Lemma simulation_underestimates_witness :
  nth 10 (N_dt Dt1652) 0 <= nth 10 N_analitik 0
  /\ nth 1 N_dt_3304 0 <= nth 1 N_dt_1652 0.
Proof.
  split.
  - apply (proj1 simulation_underestimates Dt1652 10%nat). lia.
  - apply (proj2 simulation_underestimates 1%nat). lia.
Defined.

(** ** The literal errors against the formula *)

Lemma powerRZ_10_mono (n m : Z) :
  (n <= m)%Z -> powerRZ 10 n <= powerRZ 10 m.
Proof.
  intros Hnm.
  replace m with (n + (m - n))%Z by lia.
  rewrite powerRZ_add by lra.
  assert (Hn : 0 < powerRZ 10 n) by (apply powerRZ_lt; lra).
  assert (H1 : 1 <= powerRZ 10 (m - n)).
  { destruct (m - n)%Z eqn:E; try lia; simpl.
    - lra.
    - apply pow_R1_Rle. lra. }
  nra.
Qed.

(** The decimal exponent of a number, hence its unit, is unique. *)
Lemma sig4_unit_unique (x u : R) (e0 : Z) :
  sig4_unit x u ->
  powerRZ 10 e0 <= Rabs x < powerRZ 10 (e0 + 1) ->
  u = powerRZ 10 (e0 - 3).
Proof.
  intros [e [[H1 H2] Hu]] [H3 H4].
  assert (He : e = e0).
  { destruct (Z.lt_trichotomy e e0) as [Hlt | [Heq | Hgt]]; [ | exact Heq | ].
    - assert (H := powerRZ_10_mono (e + 1) e0 ltac:(lia)). lra.
    - assert (H := powerRZ_10_mono (e0 + 1) e ltac:(lia)). lra. }
  now subst e.
Qed.

Lemma sig4_unit_N_dt (s : TimeStep) (i : nat) :
  (i <= 10)%nat -> sig4_unit (nth i (N_dt s) 0) (N_dt_unit i).
Proof.
  intros Hi.
  assert (H15 : powerRZ 10 15 = 1e15) by (simpl; lra).
  assert (H16 : powerRZ 10 16 = 1e16) by (simpl; lra).
  assert (H14 : powerRZ 10 14 = 1e14) by (simpl; lra).
  assert (H13 : powerRZ 10 13 = 1e13) by (simpl; lra).
  assert (H12 : powerRZ 10 12 = 1e12) by (simpl; lra).
  assert (H11 : powerRZ 10 11 = 1e11) by (simpl; lra).
  assert (H10 : powerRZ 10 10 = 1e10) by (simpl; lra).
  destruct s;
    each_index i ltac:(
      first
        [ exists 15%Z; change (15 + 1)%Z with 16%Z; change (15 - 3)%Z with 12%Z;
          rewrite H15, H16, H12; literal_series; cbv [N_dt_unit];
          rewrite Rabs_pos_eq by lra; repeat split; lra
        | exists 14%Z; change (14 + 1)%Z with 15%Z; change (14 - 3)%Z with 11%Z;
          rewrite H14, H15, H11; literal_series; cbv [N_dt_unit];
          rewrite Rabs_pos_eq by lra; repeat split; lra
        | exists 13%Z; change (13 + 1)%Z with 14%Z; change (13 - 3)%Z with 10%Z;
          rewrite H13, H14, H10; literal_series; cbv [N_dt_unit];
          rewrite Rabs_pos_eq by lra; repeat split; lra ]).
Qed.

(** The formula returns [e] at the atom count [A * (1 - e / 100)]. *)
Lemma relative_error_scaled (A e : R) :
  0 < A -> 0 <= e -> relative_error (A * (1 - e / 100)) A = e.
Proof.
  intros HA He. unfold relative_error.
  replace (A * (1 - e / 100) - A) with (- (A * e / 100)) by field.
  rewrite Rabs_Ropp, Rabs_pos_eq by nra.
  field. lra.
Qed.

Lemma error_agrees_from_bounds (tol : R) (s : TimeStep) (i : nat) (u : R) :
  sig4_unit (nth i (N_dt s) 0) u ->
  0 < nth i N_analitik 0 ->
  0 <= nth i (error s) 0 ->
  Rabs (nth i N_analitik 0 * (1 - nth i (error s) 0 / 100) - nth i (N_dt s) 0)
    <= tol * u ->
  error_agrees tol s i.
Proof.
  intros Hu HA He Hn.
  exists (nth i N_analitik 0 * (1 - nth i (error s) 0 / 100)), u.
  split; [ exact Hu | split; [ exact Hn | ] ].
  rewrite relative_error_scaled by assumption.
  replace (nth i (error s) 0 - nth i (error s) 0) with 0 by ring.
  rewrite Rabs_R0. lra.
Qed.

(** C5, as amended.  Every literal error is the formula's value, to four
    decimal places, at an atom count within half a unit in the fourth
    significant figure of the literal simulation value, except at
    (dt = 33035, index 6) and (dt = 6607, index 3), where it is within one
    unit. *)
Theorem error_agrees_with_formula (s : TimeStep) (i : nat) :
  (i <= 10)%nat -> error_agrees (rounding_slack s i) s i.
Proof.
  intros Hi.
  apply (error_agrees_from_bounds _ s i (N_dt_unit i)).
  - now apply sig4_unit_N_dt.
  - destruct (N_analitik_enclosure i Hi) as [Hlo _].
    remember (nth i N_analitik 0) as A eqn:EA. clear EA.
    each_index i ltac:(cbv [nth analitik_floor] in Hlo; lra).
  - destruct s; each_index i ltac:(literal_series; lra).
  - destruct (N_analitik_enclosure i Hi) as [Hlo Hhi].
    remember (nth i N_analitik 0) as A eqn:EA. clear EA.
    apply Rabs_le.
    destruct s;
      each_index i ltac:(
        cbv [nth analitik_floor] in Hlo, Hhi;
        literal_series; cbv [rounding_slack N_dt_unit]; lra).
Qed.

Lemma error_agrees_with_formula_witness :
  error_agrees (/ 2) Dt1652 10.
Proof. apply (error_agrees_with_formula Dt1652 10). lia. Defined.

Lemma Rabs_le_inv (x y : R) : Rabs x <= y -> - y <= x <= y.
Proof. unfold Rabs. destruct (Rcase_abs x); lra. Qed.

(** At an atom count [n <= n_max] below a lower bound of the analytic
    value, the formula exceeds [e_max] as soon as
    [(100 - e_max) * A_lo > 100 * n_max]. *)
Lemma relative_error_above (n A n_max A_lo e_max : R) :
  n <= n_max -> A_lo <= A -> 0 < A_lo -> n_max < A_lo -> e_max <= 100 ->
  100 * n_max < (100 - e_max) * A_lo ->
  e_max < relative_error n A.
Proof.
  intros Hn HA Hpos Hlt He Hgap. unfold relative_error.
  rewrite Rabs_left1 by lra.
  apply Rmult_lt_reg_r with A; [ lra | ].
  replace (- (n - A) / A * 100 * A) with (100 * (A - n)) by (field; lra).
  nra.
Qed.

(** C5, as stated, fails: at dt = 33035 and index 6 the simulation literal is
    1.783e14, so rounding allows atom counts up to 1.7835e14, where the
    formula still gives more than 5.8673 + 0.00005. *)
Lemma error_disagrees_33035_6 : ~ error_agrees (/ 2) Dt33035 6.
Proof.
  intros [n [u [Hu [Hn Herr]]]].
  assert (Eu : u = powerRZ 10 (14 - 3)).
  { apply (sig4_unit_unique _ _ 14 Hu).
    literal_series. rewrite Rabs_pos_eq by lra. simpl. lra. }
  assert (Eu' : u = 1e11) by (rewrite Eu; simpl; lra).
  destruct (N_analitik_enclosure 6 ltac:(lia)) as [Hlo _].
  remember (nth 6 N_analitik 0) as A eqn:EA. clear EA.
  cbv [nth analitik_floor] in Hlo.
  assert (Hgt : 5.86735 < relative_error n A).
  { apply (relative_error_above n A 1.7835e14 189467286063636); try lra.
    apply Rabs_le_inv in Hn. revert Hn. literal_series. lra. }
  apply Rabs_le_inv in Herr. revert Herr. literal_series. lra.
Qed.

(** The same at dt = 6607 and index 3: the simulation literal is 4.327e14
    and the error literal 0.5802. *)
Lemma error_disagrees_6607_3 : ~ error_agrees (/ 2) Dt6607 3.
Proof.
  intros [n [u [Hu [Hn Herr]]]].
  assert (Eu : u = powerRZ 10 (14 - 3)).
  { apply (sig4_unit_unique _ _ 14 Hu).
    literal_series. rewrite Rabs_pos_eq by lra. simpl. lra. }
  assert (Eu' : u = 1e11) by (rewrite Eu; simpl; lra).
  destruct (N_analitik_enclosure 3 ltac:(lia)) as [Hlo _].
  remember (nth 3 N_analitik 0) as A eqn:EA. clear EA.
  cbv [nth analitik_floor] in Hlo.
  assert (Hgt : 0.58025 < relative_error n A).
  { apply (relative_error_above n A 4.3275e14 435278400639908); try lra.
    apply Rabs_le_inv in Hn. revert Hn. literal_series. lra. }
  apply Rabs_le_inv in Herr. revert Herr. literal_series. lra.
Qed.

(** ** The script: bindings, alignment, no rebinding *)

Lemma Var_eqb_eq (v w : Var) : Var_eqb v w = true <-> v = w.
Proof.
  split.
  - destruct v as [| | a | | a], w as [| | b | | b]; simpl;
      try discriminate; try reflexivity;
      destruct a, b; simpl; try discriminate; reflexivity.
  - intros <-. destruct v as [| | a | | a]; try reflexivity; destruct a; reflexivity.
Qed.

Lemma assign_well_behaved (v : Var) rhs : well_behaved (assign v rhs).
Proof.
  intros st st' H. unfold assign in H.
  destruct (rhs (env st)) as [a |]; [ | discriminate ].
  injection H as <-. right. exists v. split; [ reflexivity | ].
  intros w Hw. simpl.
  destruct (Var_eqb w v) eqn:E; [ | reflexivity ].
  apply Var_eqb_eq in E. contradiction.
Qed.

Lemma plt_figure_well_behaved : well_behaved plt_figure.
Proof. intros st st' H. injection H as <-. left. split; reflexivity. Qed.

Lemma plt_decorate_well_behaved : well_behaved plt_decorate.
Proof. intros st st' H. injection H as <-. left. split; reflexivity. Qed.

Lemma plt_plot_well_behaved x y fmt label : well_behaved (plt_plot x y fmt label).
Proof.
  intros st st' H. unfold plt_plot in H.
  destruct (x (env st)) as [xs |]; [ | discriminate ].
  destruct (y (env st)) as [ys |]; [ | discriminate ].
  destruct (Nat.eqb _ _); [ | discriminate ].
  injection H as <-. left. split; reflexivity.
Qed.

Lemma program_well_behaved : Forall well_behaved program.
Proof.
  unfold program.
  repeat (constructor;
          [ first [ apply assign_well_behaved | apply plt_figure_well_behaved
                  | apply plt_plot_well_behaved | apply plt_decorate_well_behaved ] | ]).
  constructor.
Qed.

Lemma well_behaved_covers (s : Stmt) (st st' : State) :
  well_behaved s -> s st = Some st' -> bound_covers st -> bound_covers st'.
Proof.
  intros Hs Hrun Hc w a Hw.
  destruct (Hs st st' Hrun) as [[He Hb] | [v [Hb He]]].
  - rewrite Hb. rewrite He in Hw. exact (Hc w a Hw).
  - rewrite Hb. destruct (Var_eqb w v) eqn:E.
    + apply Var_eqb_eq in E. left. now symmetry.
    + right. assert (Hne : w <> v).
      { intros ->. assert (Var_eqb v v = true) by now apply Var_eqb_eq. congruence. }
      rewrite (He w Hne) in Hw. exact (Hc w a Hw).
Qed.

Lemma well_behaved_NoDup (s : Stmt) (st st' : State) :
  well_behaved s -> s st = Some st' -> NoDup (bound st') -> NoDup (bound st).
Proof.
  intros Hs Hrun Hnd.
  destruct (Hs st st' Hrun) as [[_ Hb] | [v [Hb _]]]; rewrite Hb in Hnd.
  - exact Hnd.
  - now inversion Hnd.
Qed.

Lemma well_behaved_keeps (s : Stmt) (st st' : State) :
  well_behaved s -> s st = Some st' -> bound_covers st ->
  NoDup (bound st') -> keeps_bindings st st'.
Proof.
  intros Hs Hrun Hc Hnd w a Hw.
  destruct (Hs st st' Hrun) as [[He _] | [v [Hb He]]].
  - now rewrite He.
  - rewrite Hb in Hnd. inversion Hnd as [| v' l Hnotin _]; subst.
    rewrite He; [ exact Hw | ].
    intros ->. apply Hnotin. exact (Hc v a Hw).
Qed.

Lemma run_NoDup (p : list Stmt) : forall st stf : State,
  Forall well_behaved p -> run p st = Some stf ->
  NoDup (bound stf) -> NoDup (bound st).
Proof.
  induction p as [| s p IH]; intros st stf Hp Hrun Hnd; simpl in Hrun.
  - now injection Hrun as ->.
  - inversion Hp as [| s' p' Hs Hp']; subst.
    destruct (s st) as [st' |] eqn:E; [ | discriminate ].
    apply (well_behaved_NoDup s st st' Hs E).
    exact (IH st' stf Hp' Hrun Hnd).
Qed.

(** From the state a run starts in to any later state of its trace. *)
Lemma trace_keeps_from_start (p : list Stmt) : forall (st stf : State),
  Forall well_behaved p -> bound_covers st ->
  run p st = Some stf -> NoDup (bound stf) ->
  forall (j : nat) (sj : State),
    nth_error (trace p st) j = Some sj -> keeps_bindings st sj.
Proof.
  induction p as [| s p IH]; intros st stf Hp Hc Hrun Hnd j sj Hj.
  - destruct j as [| [| j]]; simpl in Hj; try discriminate.
    injection Hj as <-. intros v a H. exact H.
  - destruct j as [| j]; simpl in Hj.
    + injection Hj as <-. intros v a H. exact H.
    + simpl in Hrun. inversion Hp as [| s' p' Hs Hp']; subst.
      destruct (s st) as [st' |] eqn:E; [ | discriminate ].
      assert (Hnd' : NoDup (bound st')) by exact (run_NoDup p st' stf Hp' Hrun Hnd).
      assert (Hk := well_behaved_keeps s st st' Hs E Hc Hnd').
      assert (Hc' := well_behaved_covers s st st' Hs E Hc).
      assert (Hk' := IH st' stf Hp' Hc' Hrun Hnd j sj Hj).
      intros v a H. apply Hk', Hk, H.
Qed.

(** In a run of well-behaved statements whose final binding log has no
    duplicate, a name once bound keeps its value in every later state. *)
Lemma trace_keeps_bindings (p : list Stmt) : forall (st stf : State),
  Forall well_behaved p -> bound_covers st ->
  run p st = Some stf -> NoDup (bound stf) ->
  forall (i j : nat) (si sj : State),
    (i <= j)%nat ->
    nth_error (trace p st) i = Some si ->
    nth_error (trace p st) j = Some sj ->
    keeps_bindings si sj.
Proof.
  induction p as [| s p IH]; intros st stf Hp Hc Hrun Hnd i j si sj Hij Hi Hj.
  - destruct i as [| [| i]]; simpl in Hi; try discriminate.
    injection Hi as <-.
    exact (trace_keeps_from_start [] st stf Hp Hc Hrun Hnd j sj Hj).
  - destruct i as [| i].
    + simpl in Hi. injection Hi as <-.
      exact (trace_keeps_from_start (s :: p) st stf Hp Hc Hrun Hnd j sj Hj).
    + destruct j as [| j]; [ lia | ].
      simpl in Hi, Hj, Hrun. inversion Hp as [| s' p' Hs Hp']; subst.
      destruct (s st) as [st' |] eqn:E; [ | discriminate ].
      assert (Hc' := well_behaved_covers s st st' Hs E Hc).
      apply (IH st' stf Hp' Hc' Hrun Hnd i j si sj); [ lia | exact Hi | exact Hj ].
Qed.

Ltac run_script :=
  cbv [run trace program assign plt_figure plt_plot plt_decorate literal name
       apply1 init env bound figures option_map Var_eqb TimeStep_eqb
       List.length Nat.eqb map np_div_scalar np_scalar_mul np_exp
       waktu N_dt_33035 N_dt_16518 N_dt_6607 N_dt_3304 N_dt_1652
       error_33035 error_16518 error_6607 error_3304 error_1652].

(** The script runs to the end; it binds every series to its value, binds
    no name twice, and plots every series against [waktu_hari] with as many
    ordinates as abscissas. *)
Lemma program_runs :
  exists st : State,
    run program init = Some st
    /\ (forall v : Var, env st v = Some (series v))
    /\ NoDup (bound st)
    /\ Forall (Forall (fun c => curve_x c = waktu_hari
                               /\ List.length (curve_y c) = 11%nat))
              (figures st).
Proof.
  run_script. eexists. split; [ reflexivity | ].
  cbv [env bound figures]. split; [ | split ].
  - intros v; destruct v as [| | s | | s]; try destruct s; reflexivity.
  - repeat (constructor; [ simpl; intuition discriminate | ]). constructor.
  - repeat (constructor; [ repeat (constructor; [ split; reflexivity | ]); constructor | ]).
    constructor.
Qed.

(** C3. Every series has 11 elements; the script binds each name to its
    series, plots each against the same day axis with matching length, and a
    name, once bound, keeps its value in every later state of the run. *)
Theorem series_aligned_and_immutable :
  (forall v : Var, List.length (series v) = 11%nat)
  /\ (exists st : State,
        run program init = Some st
        /\ (forall v : Var, env st v = Some (series v))
        /\ NoDup (bound st)
        /\ Forall (Forall (fun c => curve_x c = waktu_hari
                                   /\ List.length (curve_y c) = 11%nat))
                  (figures st))
  /\ (forall (i j : nat) (si sj : State) (v : Var) (a : list R),
        (i <= j)%nat ->
        nth_error (trace program init) i = Some si ->
        nth_error (trace program init) j = Some sj ->
        env si v = Some a -> env sj v = Some a).
Proof.
  split; [ | split ].
  - intros v; destruct v as [| | s | | s]; try destruct s; reflexivity.
  - exact program_runs.
  - destruct program_runs as [st [Hrun [_ [Hnd _]]]].
    intros i j si sj v a Hij Hi Hj.
    apply (trace_keeps_bindings program init st program_well_behaved
             ltac:(intros w b H; discriminate) Hrun Hnd i j si sj Hij Hi Hj).
Qed.

Lemma series_aligned_and_immutable_witness :
  exists si sj : State,
    nth_error (trace program init) 1 = Some si
    /\ nth_error (trace program init) 39 = Some sj
    /\ env si V_waktu = Some waktu
    /\ env sj V_waktu = Some waktu.
Proof.
  assert (Hi : exists si : State,
             nth_error (trace program init) 1 = Some si
             /\ env si V_waktu = Some waktu)
    by (run_script; cbv [nth_error]; eexists; split; reflexivity).
  assert (Hj : exists sj : State, nth_error (trace program init) 39 = Some sj)
    by (run_script; cbv [nth_error]; eexists; reflexivity).
  destruct Hi as [si [Hi Hv]]. destruct Hj as [sj Hj].
  exists si, sj. repeat split; try assumption.
  apply (proj2 (proj2 series_aligned_and_immutable) 1%nat 39%nat si sj V_waktu waktu);
    [ lia | exact Hi | exact Hj | exact Hv ].
Defined.

(** ** Further properties of the time axis and the analytic curve *)

(** X1. The analytic series is strictly decreasing along the time index,
    stays positive, and never exceeds [N0]. *)
Theorem N_analitik_strictly_decreasing (i : nat) :
  (i <= 9)%nat ->
  0 < nth (S i) N_analitik 0 < nth i N_analitik 0
  /\ nth i N_analitik 0 <= N0.
Proof.
  intros Hi.
  rewrite (N_analitik_nth i) by lia. rewrite (N_analitik_nth (S i)) by lia.
  assert (HN0 : 0 < N0) by (unfold N0; lra).
  assert (Hl : 0 < lambda_decay) by (unfold lambda_decay; lra).
  assert (Ht : 0 <= nth i waktu 0 < nth (S i) waktu 0)
    by (each_index i ltac:(try lia; cbv [nth waktu]; lra)).
  assert (Hlt : exp (- lambda_decay * nth (S i) waktu 0)
                < exp (- lambda_decay * nth i waktu 0))
    by (apply exp_increasing; nra).
  assert (Hle : exp (- lambda_decay * nth i waktu 0) <= 1).
  { rewrite <- exp_0. destruct (Req_dec (nth i waktu 0) 0) as [E | E].
    - rewrite E. right. f_equal. ring.
    - left. apply exp_increasing. nra. }
  assert (Hpos := exp_pos (- lambda_decay * nth (S i) waktu 0)).
  repeat split; nra.
Qed.

Lemma N_analitik_strictly_decreasing_witness :
  0 < nth 10 N_analitik 0 < nth 9 N_analitik 0 /\ nth 9 N_analitik 0 <= N0.
Proof. apply (N_analitik_strictly_decreasing 9). lia. Defined.





(** X4. The analytic series, to five significant figures, is
    1.0000e15, 7.5786e14, 5.7435e14, 4.3528e14, 3.2988e14, 2.5000e14,
    1.8947e14, 1.4359e14, 1.0882e14, 8.2471e13, 6.2501e13: each value is
    within half a unit of the fifth significant figure of the listed one. *)
Theorem N_analitik_values (i : nat) :
  (i <= 10)%nat ->
  Rabs (nth i N_analitik 0 - nth i N_analitik_5sig 0) <= N_dt_unit i / 20.
Proof.
  intros Hi.
  destruct (N_analitik_enclosure i Hi) as [Hlo Hhi].
  remember (nth i N_analitik 0) as A eqn:EA. clear EA.
  apply Rabs_le.
  each_index i ltac:(
    cbv [nth analitik_floor] in Hlo, Hhi;
    cbv [nth N_analitik_5sig N_dt_unit]; lra).
Qed.

Lemma N_analitik_values_witness :
  Rabs (nth 10 N_analitik 0 - nth 10 N_analitik_5sig 0) <= N_dt_unit 10 / 20.
Proof. apply (N_analitik_values 10). lia. Defined.

(** ** Further properties of the errors *)

(** X5. Every simulation starts from the analytic initial quantity [N0], so
    at the first timestamp the formula gives exactly the literal error, 0. *)
Theorem initial_condition_shared (s : TimeStep) :
  nth 0 (N_dt s) 0 = N0
  /\ nth 0 N_analitik 0 = N0
  /\ relative_error (nth 0 (N_dt s) 0) (nth 0 N_analitik 0) = nth 0 (error s) 0.
Proof.
  assert (HA : nth 0 N_analitik 0 = N0).
  { rewrite N_analitik_nth by lia. cbv [nth waktu].
    replace (- lambda_decay * 0.00) with 0 by lra.
    rewrite exp_0. ring. }
  assert (HN : nth 0 (N_dt s) 0 = N0)
    by (destruct s; literal_series; unfold N0; lra).
  split; [ exact HN | split; [ exact HA | ] ].
  rewrite HN, HA. unfold relative_error.
  replace (N0 - N0) with 0 by ring. rewrite Rabs_R0.
  destruct s; literal_series; unfold N0; lra.
Qed.

(** For an underestimate the formula is [100 * (1 - n / A)], and it is
    within [d] of [e] when [100 * n] lies between [(100 - e - d) * A] and
    [(100 - e + d) * A]. *)
Lemma relative_error_below (n A : R) :
  0 < A -> n <= A -> relative_error n A = 100 * (1 - n / A).
Proof.
  intros HA Hn. unfold relative_error.
  rewrite Rabs_left1 by lra. field. lra.
Qed.

Lemma relative_error_within (n A e d : R) :
  0 < A -> n <= A ->
  (100 - e - d) * A <= 100 * n <= (100 - e + d) * A ->
  Rabs (relative_error n A - e) <= d.
Proof.
  intros HA Hn [H1 H2].
  rewrite relative_error_below by assumption.
  assert (Hq : n / A * A = n) by (field; lra).
  set (q := n / A) in *.
  apply Rabs_le. split.
  - apply Rmult_le_reg_r with A; [ exact HA | ]. nra.
  - apply Rmult_le_reg_r with A; [ exact HA | ]. nra.
Qed.

(** X6. Recomputed from the literal simulation values and the analytic
    series, the relative error is [100 * (1 - N_dt[i] / N_analitik[i])] and
    differs from the literal error by at most 0.042 percentage points. *)
Theorem recomputed_error_close (s : TimeStep) (i : nat) :
  (i <= 10)%nat ->
  relative_error (nth i (N_dt s) 0) (nth i N_analitik 0)
  = 100 * (1 - nth i (N_dt s) 0 / nth i N_analitik 0)
  /\ Rabs (relative_error (nth i (N_dt s) 0) (nth i N_analitik 0)
           - nth i (error s) 0) <= 0.042.
Proof.
  intros Hi.
  destruct (N_analitik_enclosure i Hi) as [Hlo Hhi].
  remember (nth i N_analitik 0) as A eqn:EA. clear EA.
  assert (HA : 0 < A)
    by (each_index i ltac:(cbv [nth analitik_floor] in Hlo; lra)).
  assert (Hn : nth i (N_dt s) 0 <= A)
    by (destruct s;
        each_index i ltac:(cbv [nth analitik_floor] in Hlo; literal_series; lra)).
  split; [ now apply relative_error_below | ].
  apply relative_error_within; [ exact HA | exact Hn | ].
  destruct s;
    each_index i ltac:(
      cbv [nth analitik_floor] in Hlo, Hhi; literal_series; lra).
Qed.

Lemma recomputed_error_close_witness :
  relative_error (nth 8 (N_dt Dt6607) 0) (nth 8 N_analitik 0)
  = 100 * (1 - nth 8 (N_dt Dt6607) 0 / nth 8 N_analitik 0)
  /\ Rabs (relative_error (nth 8 (N_dt Dt6607) 0) (nth 8 N_analitik 0)
           - nth 8 (error Dt6607) 0) <= 0.042.
Proof. apply (recomputed_error_close Dt6607 8). lia. Defined.

(** X7. Every literal error lies between 0 and the last error of its
    series, and no series exceeds 9.5864 percent. *)
Theorem error_bounded (s : TimeStep) (i : nat) :
  (i <= 10)%nat ->
  0 <= nth i (error s) 0 <= nth 10 (error s) 0
  /\ nth 10 (error s) 0 <= 9.5864.
Proof.
  intros Hi.
  destruct s; each_index i ltac:(literal_series; lra).
Qed.

Lemma error_bounded_witness :
  0 <= nth 5 (error Dt3304) 0 <= nth 10 (error Dt3304) 0
  /\ nth 10 (error Dt3304) 0 <= 9.5864.
Proof. apply (error_bounded Dt3304 5). lia. Defined.



(** ** The two charts *)

(** The figures the script has built when it ends: the error chart, made
    last, comes first; within a chart the newest curve comes first. *)
Lemma final_charts :
  exists st : State,
    run program init = Some st
    /\ figures st =
       [ [ mkCurve waktu_hari error_1652 "m-d" "dt = 0.46 jam";
           mkCurve waktu_hari error_3304 "g-^" "dt = 0.92 jam";
           mkCurve waktu_hari error_6607 "c-v" "dt = 1.84 jam";
           mkCurve waktu_hari error_16518 "b-s" "dt = 4.59 jam";
           mkCurve waktu_hari error_33035 "r-o" "dt = 9.18 jam" ];
         [ mkCurve waktu_hari (np_div_scalar N_dt_1652 1e14) "m--" "dt = 0.46 jam";
           mkCurve waktu_hari (np_div_scalar N_dt_3304 1e14) "g--" "dt = 0.92 jam";
           mkCurve waktu_hari (np_div_scalar N_dt_6607 1e14) "c--" "dt = 1.84 jam";
           mkCurve waktu_hari (np_div_scalar N_dt_16518 1e14) "b--" "dt = 4.59 jam";
           mkCurve waktu_hari (np_div_scalar N_dt_33035 1e14) "r--" "dt = 9.18 jam";
           mkCurve waktu_hari (np_div_scalar N_analitik 1e14) "k-" "Analitik" ] ]%string.
Proof.
  run_script. eexists. split; reflexivity.
Qed.

(** X9. The script ends with two charts, of six and five curves, all drawn
    against the day axis.  The first holds the analytic series and the five
    simulation series, each divided by 1e14; the second holds the five error
    series as they are.  A time step has the same legend label and the same
    colour in both charts. *)
Theorem charts_pair_series :
  exists (st : State) (chart1 chart2 : list Curve),
    run program init = Some st
    /\ figures st = [chart2; chart1]
    /\ List.length chart1 = 6%nat
    /\ List.length chart2 = 5%nat
    /\ Forall (fun c => curve_x c = waktu_hari) (chart1 ++ chart2)
    /\ (exists c : Curve,
          In c chart1
          /\ curve_y c = np_div_scalar N_analitik 1e14
          /\ curve_label c = "Analitik"%string)
    /\ (forall s : TimeStep, exists c e : Curve,
          In c chart1 /\ In e chart2
          /\ curve_y c = np_div_scalar (N_dt s) 1e14
          /\ curve_y e = error s
          /\ curve_label c = curve_label e
          /\ curve_colour c = curve_colour e
          /\ curve_colour c <> None).
Proof.
  destruct final_charts as [st [Hrun Hfig]].
  eexists st, _, _. split; [ exact Hrun | split; [ exact Hfig | ] ].
  split; [ reflexivity | split; [ reflexivity | split; [ | split ] ] ].
  - repeat (constructor; [ reflexivity | ]). constructor.
  - eexists. split; [ do 5 right; left; reflexivity | split; reflexivity ].
  - intros s; destruct s; do 2 eexists.
    + split; [ do 4 right; left; reflexivity | ].
      split; [ do 4 right; left; reflexivity | ].
      repeat split; discriminate.
    + split; [ do 3 right; left; reflexivity | ].
      split; [ do 3 right; left; reflexivity | ].
      repeat split; discriminate.
    + split; [ do 2 right; left; reflexivity | ].
      split; [ do 2 right; left; reflexivity | ].
      repeat split; discriminate.
    + split; [ right; left; reflexivity | ].
      split; [ right; left; reflexivity | ].
      repeat split; discriminate.
    + split; [ left; reflexivity | ].
      split; [ left; reflexivity | ].
      repeat split; discriminate.
Qed.

(** X10. Within each chart no two curves share a legend label or a
    colour. *)
Theorem charts_curves_distinct :
  exists st : State,
    run program init = Some st
    /\ Forall (fun chart => NoDup (map curve_label chart)
                            /\ NoDup (map curve_colour chart))
              (figures st).
Proof.
  destruct final_charts as [st [Hrun Hfig]].
  exists st. split; [ exact Hrun | ]. rewrite Hfig. clear Hrun Hfig.
  repeat (apply Forall_cons;
          [ split; cbv [map curve_label curve_colour curve_fmt];
            (repeat (apply NoDup_cons;
                     [ simpl; intros H;
                       repeat (destruct H as [H | H]; [ congruence | ]); exact H
                     | ]);
             apply NoDup_nil)
          | ]).
  apply Forall_nil.
Qed.

(** X11. The hours in the legend label of a simulation are its time step
    in hours, rounded to two decimals: the label of the curve that plots
    [N_dt s] reads as [h] hundredths of an hour with
    [|h / 100 - dt s / 3600| <= 0.005]. *)
Theorem legend_matches_time_step (s : TimeStep) :
  exists (st : State) (chart1 chart2 : list Curve) (c : Curve) (h : Z),
    run program init = Some st
    /\ figures st = [chart2; chart1]
    /\ In c chart1
    /\ curve_y c = np_div_scalar (N_dt s) 1e14
    /\ label_hours (curve_label c) = Some h
    /\ Rabs (IZR h / 100 - dt s / 3600) <= 0.005.
Proof.
  destruct final_charts as [st [Hrun Hfig]].
  exists st. do 2 eexists.
  destruct s; do 2 eexists;
    (split; [ exact Hrun | split; [ exact Hfig | ] ]).
  - split; [ do 4 right; left; reflexivity | ].
    split; [ reflexivity | split; [ vm_compute; reflexivity | ] ].
    cbv [dt]. apply Rabs_le. lra.
  - split; [ do 3 right; left; reflexivity | ].
    split; [ reflexivity | split; [ vm_compute; reflexivity | ] ].
    cbv [dt]. apply Rabs_le. lra.
  - split; [ do 2 right; left; reflexivity | ].
    split; [ reflexivity | split; [ vm_compute; reflexivity | ] ].
    cbv [dt]. apply Rabs_le. lra.
  - split; [ right; left; reflexivity | ].
    split; [ reflexivity | split; [ vm_compute; reflexivity | ] ].
    cbv [dt]. apply Rabs_le. lra.
  - split; [ left; reflexivity | ].
    split; [ reflexivity | split; [ vm_compute; reflexivity | ] ].
    cbv [dt]. apply Rabs_le. lra.
Qed.

(** ** The series as binary64 values *)

Module Binary64Facts.
Local Open Scope float_scope.
Local Set Warnings "-inexact-float".

(** X12. On binary64 the day axis the script computes is exactly
    0, 1.5294, 3.0588, ..., 15.294 (the doubles nearest to these decimals),
    and it is strictly increasing. *)
Theorem day_axis_binary64 :
  Binary64.waktu_hari
  = [0; 1.5294; 3.0588; 4.5882; 6.1176; 7.647; 9.1764; 10.7058; 12.2352;
     13.7646; 15.294]
  /\ Binary64Data.chain PrimFloat.ltb Binary64.waktu_hari = true.
Proof. split; vm_compute; reflexivity. Qed.

(** X13. As binary64 values too, every simulation series is non-increasing
    and every error series strictly increasing along the time index. *)
Theorem series_monotone_binary64 (s : TimeStep) :
  Binary64Data.chain (fun x y => PrimFloat.leb y x) (Binary64Data.N_dt s) = true
  /\ Binary64Data.chain PrimFloat.ltb (Binary64Data.error s) = true.
Proof. destruct s; split; vm_compute; reflexivity. Qed.

(** X14. As binary64 values too, a larger time step has, index by index,
    the larger error and the smaller simulation value. *)
Theorem series_ordered_binary64 (a b : TimeStep) :
  (dt a > dt b)%R ->
  Binary64Data.pointwise PrimFloat.leb
    (Binary64Data.error b) (Binary64Data.error a) = true
  /\ Binary64Data.pointwise PrimFloat.leb
       (Binary64Data.N_dt a) (Binary64Data.N_dt b) = true.
Proof.
  destruct a, b; cbv [dt]; intros H; try (exfalso; lra);
    split; vm_compute; reflexivity.
Qed.

Lemma series_ordered_binary64_witness :
  Binary64Data.pointwise PrimFloat.leb
    (Binary64Data.error Dt1652) (Binary64Data.error Dt33035) = true
  /\ Binary64Data.pointwise PrimFloat.leb
       (Binary64Data.N_dt Dt33035) (Binary64Data.N_dt Dt1652) = true.
Proof.
  apply (series_ordered_binary64 Dt33035 Dt1652). cbv [dt]. lra.
Defined.

End Binary64Facts.
